(** * Fili: merge_markdown.py

    A shallow embedding of [merge_markdown_files] (src/merge_markdown.py)
    and the properties of the merged document it produces.

    The script is one sequential routine whose only effects are [print],
    opening [merged_output.md] for writing and [write] on that handle.  It
    never reads back what it wrote, so a run is modelled as a pair of

      - how the routine ended (normal return, or an exception that nothing
        caught), and
      - the trace of effects it performed, in program order.

    What the routine observes from outside (the file system, the parsed
    configuration, the wall clock) is gathered in a record [World].  The
    trace is replayed on the previous content of the output file to obtain
    the file a run leaves behind.

    Python strings are sequences of Unicode code points; POSIX path rules
    ([posixpath.join], ['/'] as separator) are assumed.  [print] and
    [write] on an opened handle are assumed to succeed.  The answers of a
    [World] are those given during the run: the content path and the
    configuration are examined before the output file is opened, the
    chapter files after it was truncated, so none of them depends on what
    the output file held before the run. *)

From Stdlib Require Import String Ascii DecimalString Floats.
From Stdlib Require Import NArith ZArith Bool Arith Lia List.
Import ListNotations.

Set Warnings "-register-all".

(* ===================================================================== *)
(** ** Python strings *)
(* ===================================================================== *)

Module PyStr.

(** A [str] is a list of code points. *)
Definition pystr := list N.

(** Literals are written as in the source and decoded from the UTF-8
    bytes of the Rocq string. *)
Fixpoint utf8_points (bs : list N) : pystr :=
  match bs with
  | [] => []
  | b0 :: r0 =>
    if (b0 <? 0x80)%N then b0 :: utf8_points r0
    else
      match r0 with
      | [] => []
      | b1 :: r1 =>
        if (b0 <? 0xE0)%N
        then ((b0 - 0xC0) * 0x40 + (b1 - 0x80))%N :: utf8_points r1
        else
          match r1 with
          | [] => []
          | b2 :: r2 =>
            if (b0 <? 0xF0)%N
            then ((b0 - 0xE0) * 0x1000 + (b1 - 0x80) * 0x40 + (b2 - 0x80))%N
                   :: utf8_points r2
            else
              match r2 with
              | [] => []
              | b3 :: r3 =>
                ((b0 - 0xF0) * 0x40000 + (b1 - 0x80) * 0x1000
                 + (b2 - 0x80) * 0x40 + (b3 - 0x80))%N :: utf8_points r3
              end
          end
      end
  end.

Definition u (s : string) : pystr :=
  utf8_points (map N_of_ascii (list_ascii_of_string s)).

(** ["\n"] *)
Definition NL : pystr := [10%N].

(** [a == b] *)
Fixpoint str_eqb (a b : pystr) : bool :=
  match a, b with
  | [], [] => true
  | x :: a', y :: b' => (x =? y)%N && str_eqb a' b'
  | _, _ => false
  end.

(** [str(n)] for a non-negative [int]. *)
Definition dec (n : nat) : pystr := u (NilZero.string_of_uint (Nat.to_uint n)).

(** [str(z)] for an [int]. *)
Definition dec_int (z : Z) : pystr := u (NilZero.string_of_int (Z.to_int z)).

(** [ch.isspace()]: the code points Python treats as whitespace. *)
Definition isspace (c : N) : bool :=
  ((0x09 <=? c) && (c <=? 0x0D) || (0x1C <=? c) && (c <=? 0x20)
   || (c =? 0x85) || (c =? 0xA0) || (c =? 0x1680)
   || (0x2000 <=? c) && (c <=? 0x200A)
   || (c =? 0x2028) || (c =? 0x2029) || (c =? 0x202F) || (c =? 0x205F)
   || (c =? 0x3000))%N.

Fixpoint lstrip (s : pystr) : pystr :=
  match s with
  | [] => []
  | c :: r => if isspace c then lstrip r else s
  end.

Definition rstrip (s : pystr) : pystr := rev (lstrip (rev s)).

(** [s.strip()] *)
Definition strip (s : pystr) : pystr := rstrip (lstrip s).

(** [s * n] *)
Definition times (s : pystr) (n : nat) : pystr := List.concat (repeat s n).

Definition startswith_sep (s : pystr) : bool :=
  match s with
  | c :: _ => (c =? 0x2F)%N
  | [] => false
  end.

Definition endswith_sep (s : pystr) : bool := startswith_sep (rev s).

End PyStr.
Import PyStr.

(* ===================================================================== *)
(** ** Values produced by [json.load] *)
(* ===================================================================== *)

(** A JSON document as [json.load] returns it.  [PDict] lists the members
    of a JSON object in document order; as in Python's decoder a repeated
    key keeps the position of its first occurrence and the value of its
    last. *)
Inductive pyval : Type :=
| PNone
| PBool (b : bool)
| PInt (z : Z)
| PFloat (f : float)
| PStr (s : pystr)
| PList (l : list pyval)
| PDict (d : list (pystr * pyval)).

Fixpoint dict_get (d : list (pystr * pyval)) (k : pystr) : option pyval :=
  match d with
  | [] => None
  | (k', v) :: d' =>
    match dict_get d' k with
    | Some w => Some w
    | None => if str_eqb k' k then Some v else None
    end
  end.

Fixpoint dict_keys (d : list (pystr * pyval)) : list pystr :=
  match d with
  | [] => []
  | (k, _) :: d' => k :: filter (fun k' => negb (str_eqb k k')) (dict_keys d')
  end.

(** [bool(v)] *)
Definition truthy (v : pyval) : bool :=
  match v with
  | PNone => false
  | PBool b => b
  | PInt z => negb (z =? 0)%Z
  | PFloat f => negb (PrimFloat.eqb f 0%float)
  | PStr s => negb (Nat.eqb (length s) 0)
  | PList l => negb (Nat.eqb (length l) 0)
  | PDict d => negb (Nat.eqb (length d) 0)
  end.

(* ===================================================================== *)
(** ** The world a run observes *)
(* ===================================================================== *)

Inductive encoding := UTF8 | GBK.

(** What [open(path, 'r', encoding=enc)] followed by [f.read()] gives. *)
Inductive read_result :=
| ReadOk (text : pystr)
| ReadDecodeError (msg : pystr)   (* UnicodeDecodeError, [str(e) = msg] *)
| ReadOtherError (msg : pystr).   (* any other Exception, [str(e) = msg] *)

(** Exceptions that can leave [merge_markdown_files]. *)
Inductive exn :=
| AttributeError
| TypeError
| KeyError
| UnicodeDecodeError
| OSError (msg : pystr).

(** What [open('config.json', 'r', encoding='utf-8')] followed by
    [json.load] gives. *)
Inductive load_result :=
| Loaded (config : pyval)
| LoadFileNotFound
| LoadJSONDecodeError (msg : pystr)
| LoadRaises (e : exn).           (* neither of the two handled classes *)

Record datetime := {
  year : nat; month : nat; day : nat;
  hour : nat; minute : nat; second : nat;
  microsecond : nat
}.

Record World := {
  path_exists : pystr -> bool;                   (* os.path.exists *)
  read_text : encoding -> pystr -> read_result;
  load_config : load_result;
  open_output : option exn;                      (* open(output_path, 'w'); None: opened *)
  now : datetime;                                (* datetime.now() *)
  repr_of : pyval -> pystr                       (* str() of floats, lists and dicts *)
}.

(* ===================================================================== *)
(** ** Effects *)
(* ===================================================================== *)

Inductive event :=
| Printed (line : pystr)          (* print(line) *)
| Opened (path : pystr)           (* open(path, 'w', encoding='utf-8') *)
| Wrote (chunk : pystr).          (* output_file.write(chunk) *)

Inductive result (A : Type) :=
| Return (a : A)
| Raised (e : exn).
Arguments Return {A} a.
Arguments Raised {A} e.

(** A computation: how it ended, and what it did. *)
Definition M (A : Type) : Type := (result A * list event)%type.

Definition ret {A} (a : A) : M A := (Return a, []).
Definition raise {A} (e : exn) : M A := (Raised e, []).
Definition emit (ev : event) : M unit := (Return tt, [ev]).

Definition bind {A B} (m : M A) (k : A -> M B) : M B :=
  match m with
  | (Return a, t) => let (r, t') := k a in (r, t ++ t')
  | (Raised e, t) => (Raised e, t)
  end.

Declare Scope py_scope.
Delimit Scope py_scope with py.
Notation "x <- m ;; k" := (bind m (fun x => k))
  (at level 61, m at next level, right associativity) : py_scope.
Notation "m ;; k" := (bind m (fun _ => k))
  (at level 61, right associativity) : py_scope.
Local Open Scope py_scope.

Definition print (line : pystr) : M unit := emit (Printed line).
Definition write (chunk : pystr) : M unit := emit (Wrote chunk).

(** ** Replaying a trace on the output file *)

(** The output file: [None] when it does not exist, else its text. *)
Definition disk := option pystr.

Definition apply_event (d : disk) (ev : event) : disk :=
  match ev with
  | Printed _ => d
  | Opened _ => Some []
  | Wrote c => Some (match d with Some t => t | None => [] end ++ c)
  end.

Definition replay (t : list event) (d : disk) : disk := fold_left apply_event t d.

(** The chunks passed to [write], in order. *)
Fixpoint writes (t : list event) : list pystr :=
  match t with
  | [] => []
  | Wrote c :: t' => c :: writes t'
  | _ :: t' => writes t'
  end.

Definition opens (t : list event) : bool :=
  existsb (fun ev => match ev with Opened _ => true | _ => false end) t.

(* ===================================================================== *)
(** ** Builtins used by the routine *)
(* ===================================================================== *)

(** [obj.get(key, default)]: only a [dict] has the method. *)
Definition py_get (obj : pyval) (key : pystr) (default : pyval) : M pyval :=
  match obj with
  | PDict d => ret (match dict_get d key with Some v => v | None => default end)
  | _ => raise AttributeError
  end.

(** [obj[key]] *)
Definition py_getitem (obj : pyval) (key : pystr) : M pyval :=
  match obj with
  | PDict d => match dict_get d key with Some v => ret v | None => raise KeyError end
  | _ => raise TypeError
  end.

(** [len(v)] *)
Definition py_len (v : pyval) : M nat :=
  match v with
  | PStr s => ret (length s)
  | PList l => ret (length l)
  | PDict d => ret (length (dict_keys d))
  | _ => raise TypeError
  end.

(** The items [for ... in v] visits. *)
Definition py_iter (v : pyval) : M (list pyval) :=
  match v with
  | PStr s => ret (map (fun c => PStr [c]) s)
  | PList l => ret l
  | PDict d => ret (map PStr (dict_keys d))
  | _ => raise TypeError
  end.

(** [f"{v}"] *)
Definition fmt (W : World) (v : pyval) : pystr :=
  match v with
  | PStr s => s
  | PNone => u "None"
  | PBool true => u "True"
  | PBool false => u "False"
  | PInt z => dec_int z
  | _ => repr_of W v
  end.

(** [posixpath.join(a, b)] on two strings. *)
Definition join (a b : pystr) : pystr :=
  if startswith_sep b then b
  else if (Nat.eqb (length a) 0 || endswith_sep a)%bool then a ++ b
  else a ++ u "/" ++ b.

(** [os.path.join(a, b)]: [b] must be a path. *)
Definition os_path_join (a : pystr) (b : pyval) : M pystr :=
  match b with
  | PStr s => ret (join a s)
  | _ => raise TypeError
  end.

Definition pad (width n : nat) : pystr :=
  times (u "0") (width - length (dec n)) ++ dec n.

(** [d.strftime('%Y-%m-%d %H:%M:%S')]: zero-padded decimal fields, as
    documented (a [datetime] has a year from 1 to 9999; some C libraries
    do not pad a year below 1000). *)
Definition strftime (d : datetime) : pystr :=
  pad 4 (year d) ++ u "-" ++ pad 2 (month d) ++ u "-" ++ pad 2 (day d)
  ++ u " " ++ pad 2 (hour d) ++ u ":" ++ pad 2 (minute d) ++ u ":" ++ pad 2 (second d).

(* ===================================================================== *)
(** ** merge_markdown_files *)
(* ===================================================================== *)

Definition config_path : pystr := u "config.json".
Definition content_dir : pystr := u "content".
Definition output_path : pystr := u "merged_output.md".

(** [open(output_path, 'w', encoding='utf-8')] *)
Definition open_w (W : World) : M unit :=
  match open_output W with
  | None => emit (Opened output_path)
  | Some e => raise e
  end.

(** The three local counters. *)
Record counts := {
  success_count : nat;
  missing_count : nat;
  error_count : nat
}.

Definition no_counts : counts :=
  {| success_count := 0; missing_count := 0; error_count := 0 |}.

Definition RULE : pystr := NL ++ NL ++ u "---" ++ NL ++ NL.

(** Lines 49-58: the header. *)
Definition write_header (W : World) (site_info : pyval) : M unit :=
  title <- py_get site_info (u "title") (PStr (u "Untitled")) ;;
  write (u "# " ++ fmt W title ++ NL ++ NL) ;;
  subtitle <- py_get site_info (u "subtitle") (PStr (u "")) ;;
  write (u "**" ++ fmt W subtitle ++ u "**" ++ NL ++ NL) ;;
  other <- py_get site_info (u "other") PNone ;;
  (if truthy other then
     o <- py_getitem site_info (u "other") ;;
     write (u "*" ++ fmt W o ++ u "*" ++ NL ++ NL)
   else ret tt) ;;
  author <- py_get site_info (u "author") (PStr (u "Unknown")) ;;
  write (u "作者: " ++ fmt W author ++ NL ++ NL) ;;
  url <- py_get site_info (u "url") (PStr (u "")) ;;
  write (u "网站: " ++ fmt W url ++ NL ++ NL) ;;
  write (u "生成时间: " ++ strftime (now W) ++ NL ++ NL) ;;
  write (times (u "=") 80 ++ NL ++ NL).

(** Lines 67-116: the body of the loop, for entry number [index] of
    [total]; [c] holds the counters before, the result the counters
    after. *)
Definition process_file (W : World) (total index : nat) (filename : pyval)
    (c : counts) : M counts :=
  file_path <- os_path_join content_dir filename ;;
  print (u "[" ++ dec index ++ u "/" ++ dec total ++ u "] 处理: " ++ fmt W filename) ;;
  if negb (path_exists W file_path) then
    print (u "    ⚠️  文件不存在，跳过") ;;
    write RULE ;;
    write (u "## ⚠️ " ++ fmt W filename ++ NL ++ NL) ;;
    write (u "*此文件缺失*" ++ NL ++ NL) ;;
    ret {| success_count := success_count c;
           missing_count := missing_count c + 1;
           error_count := error_count c |}
  else
    match read_text W UTF8 file_path with
    | ReadOk text =>
      let content := strip text in
      write RULE ;;
      write (u "<!-- 第 " ++ dec index ++ u " 篇 | 来源: " ++ fmt W filename ++ u " -->" ++ NL ++ NL) ;;
      write content ;;
      write (NL ++ NL) ;;
      print (u "    ✅ 成功") ;;
      ret {| success_count := success_count c + 1;
             missing_count := missing_count c;
             error_count := error_count c |}
    | ReadDecodeError _ =>
      print (u "    ❌ 编码错误，尝试其他编码") ;;
      match read_text W GBK file_path with
      | ReadOk text =>
        let content := strip text in
        write RULE ;;
        write (u "<!-- 第 " ++ dec index ++ u " 篇 | 来源: " ++ fmt W filename ++ u " -->" ++ NL ++ NL) ;;
        write content ;;
        write (NL ++ NL) ;;
        print (u "    ✅ 成功 (使用 GBK 编码)") ;;
        ret {| success_count := success_count c + 1;
               missing_count := missing_count c;
               error_count := error_count c |}
      | ReadDecodeError e | ReadOtherError e =>
        print (u "    ❌ 读取失败: " ++ e) ;;
        ret {| success_count := success_count c;
               missing_count := missing_count c;
               error_count := error_count c + 1 |}
      end
    | ReadOtherError e =>
      print (u "    ❌ 读取失败: " ++ e) ;;
      write RULE ;;
      write (u "## ❌ " ++ fmt W filename ++ NL ++ NL) ;;
      write (u "*读取失败: " ++ e ++ u "*" ++ NL ++ NL) ;;
      ret {| success_count := success_count c;
             missing_count := missing_count c;
             error_count := error_count c + 1 |}
    end.

(** Line 66: [for index, filename in enumerate(render_order, 1)]. *)
Fixpoint merge_loop (W : World) (total index : nat) (files : list pyval)
    (c : counts) : M counts :=
  match files with
  | [] => ret c
  | filename :: rest =>
    c' <- process_file W total index filename c ;;
    merge_loop W total (S index) rest c'
  end.

(** Lines 120-128: the summary. *)
Definition print_summary (total : nat) (c : counts) : M unit :=
  print (NL ++ times (u "=") 50) ;;
  print (u "✨ 合并完成!") ;;
  print (u "📊 统计信息:") ;;
  print (u "   - 总计: " ++ dec total ++ u " 个文件") ;;
  print (u "   - ✅ 成功: " ++ dec (success_count c) ++ u " 个") ;;
  print (u "   - ⚠️  缺失: " ++ dec (missing_count c) ++ u " 个") ;;
  print (u "   - ❌ 错误: " ++ dec (error_count c) ++ u " 个") ;;
  print (u "📄 输出文件: " ++ output_path) ;;
  print (times (u "=") 50).

(** The routine.  Python returns [None] on every path; the model returns
    the final counters when the loop was run to its end, so that claims
    about them can be stated, and [None] when the routine left at one of
    its early [return]s. *)
Definition merge_markdown_files (W : World) : M (option counts) :=
  if negb (path_exists W content_dir) then
    print (u "错误: 找不到 " ++ content_dir ++ u " 目录") ;;
    ret None
  else
    match load_config W with
    | LoadFileNotFound =>
      print (u "错误: 找不到配置文件 " ++ config_path) ;;
      ret None
    | LoadJSONDecodeError e =>
      print (u "错误: 配置文件格式不正确 - " ++ e) ;;
      ret None
    | LoadRaises e => raise e
    | Loaded config =>
      render_order <- py_get config (u "chapters") (PList []) ;;
      if negb (truthy render_order) then
        print (u "警告: chapters 为空") ;;
        ret None
      else
        site_info <- py_get config (u "siteInfo") (PDict []) ;;
        total <- py_len render_order ;;
        print (u "开始合并 " ++ dec total ++ u " 个文件..." ++ NL) ;;
        open_w W ;;
        write_header W site_info ;;
        files <- py_iter render_order ;;
        c <- merge_loop W total 1 files no_counts ;;
        print_summary total c ;;
        ret (Some c)
    end.


Definition main (W : World) : M unit := merge_markdown_files W ;; ret tt.

(** The output file after a run that found it as [prior]. *)
Definition output_after (W : World) (prior : disk) : disk :=
  replay (snd (main W)) prior.

(* ===================================================================== *)
(** ** A concrete file system *)
(* ===================================================================== *)

(** A directory tree without links, every directory searchable.  A regular
    file is given by what reading it as text gives under each encoding
    (which also covers a file that may not be opened). *)
Module Posix.

Inductive node : Type :=
| File (rd : encoding -> read_result)
| Dir (entries : list (pystr * node)).

Record fs := {
  root : node;
  cwd : list pystr          (* names from the root to the working directory *)
}.

Fixpoint child (entries : list (pystr * node)) (name : pystr) : option node :=
  match entries with
  | [] => None
  | (k, n) :: rest => if str_eqb k name then Some n else child rest name
  end.

Fixpoint node_at (n : node) (p : list pystr) : option node :=
  match p with
  | [] => Some n
  | c :: p' =>
    match n with
    | Dir es => match child es c with Some m => node_at m p' | None => None end
    | File _ => None
    end
  end.

(** [path.split('/')] *)
Fixpoint split_sep (path : pystr) : list pystr :=
  match path with
  | [] => [[]]
  | c :: r =>
    if (c =? 0x2F)%N then [] :: split_sep r
    else
      match split_sep r with
      | h :: t => (c :: h) :: t
      | [] => [[c]]
      end
  end.

(** Path resolution: every component, also an empty one, ["."] and
    [".."], is looked up in a directory (ENOTDIR otherwise); a name must
    be an entry of it (ENOENT otherwise). *)
Fixpoint walk (r : node) (cur : list pystr) (comps : list pystr)
    : option (list pystr) :=
  match comps with
  | [] => Some cur
  | c :: rest =>
    match node_at r cur with
    | Some (Dir es) =>
      if (str_eqb c (u "") || str_eqb c (u "."))%bool then walk r cur rest
      else if str_eqb c (u "..") then walk r (removelast cur) rest
      else
        match child es c with
        | Some _ => walk r (cur ++ [c]) rest
        | None => None
        end
    | _ => None
    end
  end.

(** [os.stat(path)]: the node, or [None] for an [OSError]. *)
Definition stat (f : fs) (path : pystr) : option node :=
  match path with
  | [] => None
  | _ :: _ =>
    match walk (root f) (if startswith_sep path then [] else cwd f) (split_sep path) with
    | Some p => node_at (root f) p
    | None => None
    end
  end.

(** [os.path.exists(path)] *)
Definition exists_ (f : fs) (path : pystr) : bool :=
  match stat f path with
  | Some _ => true
  | None => false
  end.

(** [open(path, 'r', encoding=enc)] then [f.read()]. *)
Definition open_read (f : fs) (enc : encoding) (path : pystr) : read_result :=
  match stat f path with
  | Some (File rd) => rd enc
  | Some (Dir _) => ReadOtherError (u "[Errno 21] Is a directory: '" ++ path ++ u "'")
  | None => ReadOtherError (u "[Errno 2] No such file or directory: '" ++ path ++ u "'")
  end.

Definition world (f : fs) (cfg : load_result) (out : option exn)
    (clock : datetime) (rp : pyval -> pystr) : World :=
  {| path_exists := exists_ f;
     read_text := open_read f;
     load_config := cfg;
     open_output := out;
     now := clock;
     repr_of := rp |}.

End Posix.

(* ===================================================================== *)
(** ** What the specification says a run writes *)
(* ===================================================================== *)

(** The five ways an entry can turn out. *)
Inductive entry_class :=
| Absent                          (* no such path *)
| Text (t : pystr)                (* read as UTF-8 *)
| Recovered (t : pystr)           (* read as GBK after UTF-8 failed to decode *)
| Undecodable (msg : pystr)       (* neither decoding worked *)
| Unreadable (msg : pystr).       (* open or read failed otherwise *)

Definition classify (W : World) (name : pystr) : entry_class :=
  let p := join content_dir name in
  if path_exists W p then
    match read_text W UTF8 p with
    | ReadOk t => Text t
    | ReadDecodeError _ =>
      match read_text W GBK p with
      | ReadOk t => Recovered t
      | ReadDecodeError e | ReadOtherError e => Undecodable e
      end
    | ReadOtherError e => Unreadable e
    end
  else Absent.

Definition content_section (index : nat) (name text : pystr) : list pystr :=
  [ RULE;
    u "<!-- 第 " ++ dec index ++ u " 篇 | 来源: " ++ name ++ u " -->" ++ NL ++ NL;
    strip text;
    NL ++ NL ].

Definition missing_section (name : pystr) : list pystr :=
  [ RULE;
    u "## ⚠️ " ++ name ++ NL ++ NL;
    u "*此文件缺失*" ++ NL ++ NL ].

Definition error_section (name msg : pystr) : list pystr :=
  [ RULE;
    u "## ❌ " ++ name ++ NL ++ NL;
    u "*读取失败: " ++ msg ++ u "*" ++ NL ++ NL ].

(** The section of one entry; none at all for an undecodable file. *)
Definition section_of (W : World) (index : nat) (name : pystr) : list pystr :=
  match classify W name with
  | Absent => missing_section name
  | Text t | Recovered t => content_section index name t
  | Undecodable _ => []
  | Unreadable e => error_section name e
  end.

Definition success (c : counts) : counts :=
  {| success_count := success_count c + 1;
     missing_count := missing_count c;
     error_count := error_count c |}.

Definition missing (c : counts) : counts :=
  {| success_count := success_count c;
     missing_count := missing_count c + 1;
     error_count := error_count c |}.

Definition failed (c : counts) : counts :=
  {| success_count := success_count c;
     missing_count := missing_count c;
     error_count := error_count c + 1 |}.

Definition tally (cl : entry_class) (c : counts) : counts :=
  match cl with
  | Absent => missing c
  | Text _ | Recovered _ => success c
  | Undecodable _ | Unreadable _ => failed c
  end.

Fixpoint sections (W : World) (index : nat) (names : list pystr) : list pystr :=
  match names with
  | [] => []
  | n :: rest => section_of W index n ++ sections W (S index) rest
  end.

Fixpoint tally_all (W : World) (names : list pystr) (c : counts) : counts :=
  match names with
  | [] => c
  | n :: rest => tally_all W rest (tally (classify W n) c)
  end.


(** The header, field by field. *)
Definition field (W : World) (si : list (pystr * pyval)) (key fallback : pystr) : pystr :=
  match dict_get si key with
  | Some v => fmt W v
  | None => fallback
  end.

Definition other_line (W : World) (si : list (pystr * pyval)) : list pystr :=
  match dict_get si (u "other") with
  | Some o => if truthy o then [u "*" ++ fmt W o ++ u "*" ++ NL ++ NL] else []
  | None => []
  end.

Definition header_chunks (W : World) (si : list (pystr * pyval)) : list pystr :=
  [ u "# " ++ field W si (u "title") (u "Untitled") ++ NL ++ NL;
    u "**" ++ field W si (u "subtitle") (u "") ++ u "**" ++ NL ++ NL ]
  ++ other_line W si
  ++ [ u "作者: " ++ field W si (u "author") (u "Unknown") ++ NL ++ NL;
       u "网站: " ++ field W si (u "url") (u "") ++ NL ++ NL;
       u "生成时间: " ++ strftime (now W) ++ NL ++ NL;
       times (u "=") 80 ++ NL ++ NL ].

(** A section marker is the rule that opens a section. *)
Definition markers (chunks : list pystr) : nat :=
  length (filter (str_eqb RULE) chunks).

(** [config.get('siteInfo', {})] *)
Definition site_info_of (d : list (pystr * pyval)) : pyval :=
  match dict_get d (u "siteInfo") with
  | Some v => v
  | None => PDict []
  end.


(** [config.get('chapters', [])] *)
Definition render_order_of (d : list (pystr * pyval)) : pyval :=
  match dict_get d (u "chapters") with
  | Some v => v
  | None => PList []
  end.

(** The values [len] and [for] accept. *)
Definition has_len (v : pyval) : bool :=
  match v with
  | PStr _ | PList _ | PDict _ => true
  | _ => false
  end.

Definition items (v : pyval) : list pyval :=
  match v with
  | PStr s => map (fun c => PStr [c]) s
  | PList l => l
  | PDict d => map PStr (dict_keys d)
  | _ => []
  end.

(** Line 45. *)
Definition start_line (n : nat) : pystr :=
  u "开始合并 " ++ dec n ++ u " 个文件..." ++ NL.

(** The same world at another microsecond of the same second. *)
Definition at_microsecond (W : World) (us : nat) : World :=
  {| path_exists := path_exists W;
     read_text := read_text W;
     load_config := load_config W;
     open_output := open_output W;
     now := {| year := year (now W); month := month (now W); day := day (now W);
               hour := hour (now W); minute := minute (now W);
               second := second (now W); microsecond := us |};
     repr_of := repr_of W |}.

(** A computation that first performs [t]. *)
Definition prefix {A} (t : list event) (m : M A) : M A := (fst m, t ++ snd m).




Definition undecodable (cl : entry_class) : bool :=
  match cl with
  | Undecodable _ => true
  | _ => false
  end.


(** Comparing two states of the output file. *)
Definition same_disk (a b : disk) : bool :=
  match a, b with
  | Some x, Some y => str_eqb x y
  | None, None => true
  | _, _ => false
  end.

(* ===================================================================== *)
(** ** Sample inputs *)
(* ===================================================================== *)

Module Sample.
Import Posix.

(** A file of ASCII text reads alike under both encodings. *)
Definition ascii_file (text : pystr) : node :=
  File (fun _ => ReadOk text).

(** The three bytes D6 D0 0A: not UTF-8 (D0 is no continuation byte), and
    the character U+4E2D followed by a newline in GBK. *)
Definition gbk_file : node :=
  File (fun enc =>
    match enc with
    | UTF8 => ReadDecodeError
        (u "'utf-8' codec can't decode byte 0xd6 in position 0: invalid continuation byte")
    | GBK => ReadOk (u "中" ++ NL)
    end).

(** The single byte FF: a valid start in neither encoding. *)
Definition binary_file : node :=
  File (fun enc =>
    match enc with
    | UTF8 => ReadDecodeError
        (u "'utf-8' codec can't decode byte 0xff in position 0: invalid start byte")
    | GBK => ReadDecodeError
        (u "'gbk' codec can't decode byte 0xff in position 0: incomplete multibyte sequence")
    end).

Definition content_entries : list (pystr * node) :=
  [ (u "a.md", ascii_file (u "Hello" ++ NL));
    (u "gbk.md", gbk_file);
    (u "bin.md", binary_file);
    (u "sub", Dir []) ].

(** A working directory with a content directory. *)
Definition tree : fs :=
  {| root := Dir [ (u "content", Dir content_entries) ]; cwd := [] |}.


Definition clock : datetime :=
  {| year := 2024; month := 5; day := 17;
     hour := 9; minute := 30; second := 7; microsecond := 250 |}.

Definition later : datetime :=
  {| year := 2024; month := 5; day := 17;
     hour := 9; minute := 30; second := 8; microsecond := 250 |}.

Definition site : pyval :=
  PDict [ (u "title", PStr (u "Fili")); (u "other", PStr (u "")) ].

Definition config (names : list pystr) : pyval :=
  PDict [ (u "chapters", PList (map PStr names)); (u "siteInfo", site) ].

Definition no_repr : pyval -> pystr := fun _ => u "".

(** [config.json] lists [names]; the output file can be opened. *)
Definition run (f : fs) (names : list pystr) (d : datetime) : World :=
  world f (Loaded (config names)) None d no_repr.

(** [config.json] holds [{"chapters": [1]}]. *)
Definition number_entry : World :=
  world tree (Loaded (PDict [ (u "chapters", PList [PInt 1]) ])) None clock no_repr.


End Sample.

(* ===================================================================== *)
(** ** How far a run gets *)
(* ===================================================================== *)

Definition is_str (v : pyval) : bool :=
  match v with
  | PStr _ => true
  | _ => false
  end.

Definition is_dict (v : pyval) : bool :=
  match v with
  | PDict _ => true
  | _ => false
  end.

(** The strings among the items of a list. *)
Definition names_of (files : list pyval) : list pystr :=
  flat_map (fun v => match v with PStr s => [s] | _ => [] end) files.

(** The run leaves at one of the four early [return]s (lines 23, 31, 34
    and 40). *)
Definition aborts (W : World) : bool :=
  negb (path_exists W content_dir)
  || match load_config W with
     | LoadFileNotFound | LoadJSONDecodeError _ => true
     | Loaded (PDict d) => negb (truthy (render_order_of d))
     | _ => false
     end.

(** What it prints when it does. *)
Definition abort_message (W : World) : pystr :=
  if path_exists W content_dir then
    match load_config W with
    | LoadFileNotFound => u "错误: 找不到配置文件 config.json"
    | LoadJSONDecodeError e => u "错误: 配置文件格式不正确 - " ++ e
    | _ => u "警告: chapters 为空"
    end
  else u "错误: 找不到 content 目录".

(** The run reaches line 47. *)
Definition reaches_open (W : World) : bool :=
  path_exists W content_dir
  && match load_config W with
     | Loaded (PDict d) => truthy (render_order_of d) && has_len (render_order_of d)
     | _ => false
     end.

(** The run opens the output file. *)
Definition opens_output (W : World) : bool :=
  reaches_open W && match open_output W with None => true | Some _ => false end.

(** The run reaches the summary. *)
Definition completes (W : World) : bool :=
  opens_output W
  && match load_config W with
     | Loaded (PDict d) =>
       is_dict (site_info_of d) && forallb is_str (items (render_order_of d))
     | _ => false
     end.

(** The path at which an entry is looked up. *)
Definition entry_path (name : pystr) : pystr :=
  if startswith_sep name then name else content_dir ++ u "/" ++ name.







(* ===================================================================== *)
(** ** More sample inputs *)
(* ===================================================================== *)

Module Cases.
Import Posix.

(** [merged_output.md] may not be written. *)
Definition locked : World :=
  world Sample.tree (Loaded (Sample.config [u "a.md"]))
        (Some (OSError (u "[Errno 13] Permission denied: 'merged_output.md'")))
        Sample.clock Sample.no_repr.

(** [config.json] holds [{"chapters": ["a.md"], "siteInfo": "Fili"}]. *)
Definition site_is_string : World :=
  world Sample.tree
        (Loaded (PDict [ (u "chapters", PList [PStr (u "a.md")]);
                         (u "siteInfo", PStr (u "Fili")) ]))
        None Sample.clock Sample.no_repr.



(** [config.json] holds [{"chapters": ["a.md"], "siteInfo": {"title": null}}]. *)
Definition null_title : World :=
  world Sample.tree
        (Loaded (PDict [ (u "chapters", PList [PStr (u "a.md")]);
                         (u "siteInfo", PDict [ (u "title", PNone) ]) ]))
        None Sample.clock Sample.no_repr.

(** A content directory with a file of blanks and a copy of [a.md] at an
    absolute path. *)
Definition blank_tree : fs :=
  {| root := Dir [ (u "content", Dir [ (u "blank.md", Sample.ascii_file (u "  " ++ NL)) ]);
                   (u "elsewhere.md", Sample.ascii_file (u "Hello" ++ NL)) ];
     cwd := [] |}.

Definition blanks : World :=
  Sample.run blank_tree [u "blank.md"; u "/elsewhere.md"] Sample.clock.

(** The same file at the same absolute path, beside another content
    directory and another configuration. *)
Definition moved_tree : fs :=
  {| root := Dir [ (u "elsewhere.md", Sample.ascii_file (u "Hello" ++ NL));
                   (u "content", Dir [ (u "elsewhere.md", Sample.binary_file) ]) ];
     cwd := [] |}.

Definition moved : World :=
  Sample.run moved_tree [u "/elsewhere.md"] Sample.later.

End Cases.

(* ===================================================================== *)
(** * Properties *)
(* ===================================================================== *)

(* ===================================================================== *)
(** ** Traces *)
(* ===================================================================== *)

Arguments u : simpl never.
Arguments dec : simpl never.
Arguments strftime : simpl never.
Arguments times : simpl never.
Arguments strip : simpl never.
Arguments join : simpl never.

Lemma writes_app (t1 t2 : list event) : writes (t1 ++ t2) = writes t1 ++ writes t2.
Proof.
  induction t1 as [|ev t1 IH]; simpl; [reflexivity|].
  destruct ev; simpl; rewrite IH; reflexivity.
Qed.

Lemma opens_app (t1 t2 : list event) : opens (t1 ++ t2) = (opens t1 || opens t2)%bool.
Proof. unfold opens. apply existsb_app. Qed.

Lemma replay_app (t1 t2 : list event) (d : disk) :
  replay (t1 ++ t2) d = replay t2 (replay t1 d).
Proof. unfold replay. apply fold_left_app. Qed.

(** Without an [open], a trace appends its chunks to an existing file. *)
Lemma replay_appends (t : list event) : forall (text : pystr),
  opens t = false ->
  replay t (Some text) = Some (text ++ List.concat (writes t)).
Proof.
  unfold replay.
  induction t as [|ev t IH]; intros text Hno.
  - simpl. rewrite app_nil_r. reflexivity.
  - destruct ev as [l|p|c]; cbn [fold_left apply_event writes List.concat].
    + apply IH. exact Hno.
    + discriminate Hno.
    + rewrite IH by exact Hno. rewrite app_assoc. reflexivity.
Qed.

(** Without an [open] and without a [write], a trace leaves the file alone. *)
Lemma replay_silent (t : list event) (d : disk) :
  opens t = false -> writes t = [] -> replay t d = d.
Proof.
  unfold replay. revert d.
  induction t as [|ev t IH]; intros d Hno Hw; [reflexivity|].
  destruct ev as [l|p|c]; cbn [fold_left apply_event].
  - apply IH; assumption.
  - discriminate Hno.
  - discriminate Hw.
Qed.

(** After an [open] the file holds what was written since, whatever it
    held before. *)
Lemma replay_open (t1 t2 : list event) (path : pystr) (d : disk) :
  opens t2 = false ->
  replay (t1 ++ Opened path :: t2) d = Some (List.concat (writes t2)).
Proof.
  intros Hno. rewrite replay_app. unfold replay at 1. simpl.
  fold (replay t2 (Some [])). rewrite replay_appends by exact Hno. reflexivity.
Qed.

(** ** The monad *)

Lemma bind_return {A B} (a : A) (t : list event) (k : A -> M B) :
  bind (Return a, t) k = (fst (k a), t ++ snd (k a)).
Proof. unfold bind. destruct (k a); reflexivity. Qed.

Lemma bind_raised {A B} (e : exn) (t : list event) (k : A -> M B) :
  bind (Raised e, t) k = (Raised e, t).
Proof. reflexivity. Qed.

(* ===================================================================== *)
(** ** The loop body and the loop *)
(* ===================================================================== *)

(** One iteration on a string entry: it returns, counts the entry once in
    the counter of its class, and writes the section of its class. *)
Lemma process_file_str (W : World) (total index : nat) (name : pystr) (c : counts) :
  exists t,
    process_file W total index (PStr name) c = (Return (tally (classify W name) c), t)
    /\ writes t = section_of W index name
    /\ opens t = false.
Proof.
  unfold section_of, classify, process_file, os_path_join.
  unfold ret at 1. rewrite bind_return. cbn [fst snd app].
  destruct (path_exists W (join content_dir name)); cbn [negb].
  - destruct (read_text W UTF8 (join content_dir name)).
    + eexists; split; [reflexivity | split; reflexivity].
    + destruct (read_text W GBK (join content_dir name));
        (eexists; split; [reflexivity | split; reflexivity]).
    + eexists; split; [reflexivity | split; reflexivity].
  - eexists; split; [reflexivity | split; reflexivity].
Qed.

(** An entry that is not a string stops the run in [os.path.join]. *)
Lemma process_file_not_str (W : World) (total index : nat) (v : pyval) (c : counts) :
  (forall s, v <> PStr s) ->
  process_file W total index v c = (Raised TypeError, []).
Proof.
  intros H. destruct v; try reflexivity. exfalso. apply (H s). reflexivity.
Qed.

Lemma process_file_no_open (W : World) (total index : nat) (v : pyval) (c : counts) :
  opens (snd (process_file W total index v c)) = false.
Proof.
  destruct v; try reflexivity.
  destruct (process_file_str W total index s c) as (t & -> & _ & H). exact H.
Qed.

Lemma merge_loop_no_open (W : World) (total : nat) (files : list pyval) :
  forall index c, opens (snd (merge_loop W total index files c)) = false.
Proof.
  induction files as [|v files IH]; intros index c; cbn [merge_loop]; [reflexivity|].
  pose proof (process_file_no_open W total index v c) as Hp.
  destruct (process_file W total index v c) as [[c'|e] t]; cbn [snd] in Hp.
  - rewrite bind_return. cbn [snd]. rewrite opens_app, Hp, IH. reflexivity.
  - rewrite bind_raised. exact Hp.
Qed.

(** The loop over string entries. *)
Lemma merge_loop_names (W : World) (total : nat) (names : list pystr) :
  forall index c, exists t,
    merge_loop W total index (map PStr names) c = (Return (tally_all W names c), t)
    /\ writes t = sections W index names
    /\ opens t = false.
Proof.
  induction names as [|n names IH]; intros index c;
    cbn [merge_loop map tally_all sections].
  - exists []. split; [reflexivity | split; reflexivity].
  - destruct (process_file_str W total index n c) as (t1 & E1 & W1 & O1).
    destruct (IH (S index) (tally (classify W n) c)) as (t2 & E2 & W2 & O2).
    rewrite E1, bind_return, E2. cbn [fst snd].
    exists (t1 ++ t2). split; [reflexivity | split].
    + rewrite writes_app, W1, W2. reflexivity.
    + rewrite opens_app, O1, O2. reflexivity.
Qed.

(** ** The header *)

Lemma write_header_dict (W : World) (si : list (pystr * pyval)) :
  exists t,
    write_header W (PDict si) = (Return tt, t)
    /\ writes t = header_chunks W si
    /\ opens t = false.
Proof.
  unfold write_header, header_chunks, other_line, field, py_get, py_getitem.
  destruct (dict_get si (u "title")), (dict_get si (u "subtitle")),
    (dict_get si (u "author")), (dict_get si (u "url"));
    (destruct (dict_get si (u "other")) as [o|];
     cbv beta iota delta [bind ret write emit raise];
     [destruct (truthy o) |];
     (eexists; split; [reflexivity | split; reflexivity])).
Qed.

Lemma write_header_not_dict (W : World) (v : pyval) :
  (forall si, v <> PDict si) ->
  write_header W v = (Raised AttributeError, []).
Proof.
  intros H. destruct v; try reflexivity. exfalso. apply (H d). reflexivity.
Qed.

Lemma bind_pure {A B} (a : A) (k : A -> M B) : bind (ret a) k = k a.
Proof. unfold bind, ret. destruct (k a). reflexivity. Qed.

Lemma bind_step {A B} (a : A) (t : list event) (k : A -> M B) :
  bind (Return a, t) k = prefix t (k a).
Proof. unfold bind, prefix. destruct (k a). reflexivity. Qed.

Lemma bind_emit {B} (ev : event) (k : unit -> M B) :
  bind (emit ev) k = prefix [ev] (k tt).
Proof. apply bind_step. Qed.

Lemma py_len_items (v : pyval) :
  has_len v = true -> py_len v = (Return (length (items v)), []).
Proof.
  destruct v; try discriminate; intros _; cbn [py_len items]; unfold ret;
    rewrite ?length_map; reflexivity.
Qed.

Lemma py_iter_items (v : pyval) :
  has_len v = true -> py_iter v = (Return (items v), []).
Proof. destruct v; try discriminate; reflexivity. Qed.

(* ===================================================================== *)
(** ** A run that gets past the setup *)
(* ===================================================================== *)

(** With the content path present, the configuration a JSON object whose
    [chapters] is non-empty and iterable and whose [siteInfo] is an object
    (or absent), and the output file opened, the trace is: the start line,
    the [open], the header, the loop, and the summary if the loop ended. *)
Lemma merge_proceeds (W : World) (d si : list (pystr * pyval)) :
  path_exists W content_dir = true ->
  load_config W = Loaded (PDict d) ->
  truthy (render_order_of d) = true ->
  has_len (render_order_of d) = true ->
  site_info_of d = PDict si ->
  open_output W = None ->
  let files := items (render_order_of d) in
  let n := length files in
  let lp := merge_loop W n 1 files no_counts in
  exists t_h,
    writes t_h = header_chunks W si /\ opens t_h = false /\
    merge_markdown_files W =
      (match fst lp with Return c => Return (Some c) | Raised e => Raised e end,
       Printed (start_line n) :: Opened output_path :: t_h ++ snd lp
         ++ match fst lp with Return c => snd (print_summary n c) | Raised _ => [] end).
Proof.
  intros Hc Hl Ht Hlen Hsi Ho files n lp.
  destruct (write_header_dict W si) as (t_h & Eh & Wh & Oh).
  exists t_h. split; [exact Wh|]. split; [exact Oh|].
  unfold merge_markdown_files. rewrite Hc, Hl. cbn [negb].
  unfold py_get. fold (render_order_of d). fold (site_info_of d).
  rewrite bind_pure, Ht. cbn [negb].
  rewrite bind_pure, (py_len_items _ Hlen), bind_step.
  unfold print at 1, open_w. rewrite Ho, !bind_emit, Hsi, Eh, bind_step.
  rewrite (py_iter_items _ Hlen). fold (ret (items (render_order_of d))).
  rewrite bind_pure. fold files. fold n. fold lp.
  destruct lp as [[c|e] tl]; cbn [fst snd].
  - rewrite bind_step. unfold prefix. cbn [fst snd app].
    unfold start_line. repeat f_equal.
  - rewrite bind_raised. unfold prefix. cbn [fst snd app]. rewrite app_nil_r.
    reflexivity.
Qed.

(* ===================================================================== *)
(** ** Setup *)
(* ===================================================================== *)



(* ===================================================================== *)
(** ** One entry *)
(* ===================================================================== *)



(* ===================================================================== *)
(** ** Counters *)
(* ===================================================================== *)





(* ===================================================================== *)
(** ** Whole runs *)
(* ===================================================================== *)

Lemma main_result (W : World) :
  fst (main W) = match fst (merge_markdown_files W) with
                 | Return _ => Return tt
                 | Raised e => Raised e
                 end
  /\ snd (main W) = snd (merge_markdown_files W).
Proof.
  unfold main. destruct (merge_markdown_files W) as [[r|e] t].
  - rewrite bind_step. unfold prefix, ret. cbn [fst snd]. rewrite app_nil_r. split; reflexivity.
  - rewrite bind_raised. split; reflexivity.
Qed.

Lemma summary_trace (n : nat) (c : counts) :
  fst (print_summary n c) = Return tt
  /\ writes (snd (print_summary n c)) = []
  /\ opens (snd (print_summary n c)) = false.
Proof. repeat split. Qed.

(** A run over a non-empty list of file names: it returns, the counters
    are the tally of the entries, and what it writes after opening the
    output file is the header followed by the sections in list order. *)
Lemma run_names (W : World) (d si : list (pystr * pyval)) (names : list pystr) :
  path_exists W content_dir = true ->
  load_config W = Loaded (PDict d) ->
  render_order_of d = PList (map PStr names) ->
  names <> [] ->
  site_info_of d = PDict si ->
  open_output W = None ->
  exists t,
    merge_markdown_files W =
      (Return (Some (tally_all W names no_counts)),
       Printed (start_line (length names)) :: Opened output_path :: t)
    /\ writes t = header_chunks W si ++ sections W 1 names
    /\ opens t = false.
Proof.
  intros Hc Hl Hr Hne Hsi Ho.
  assert (Ht : truthy (render_order_of d) = true).
  { rewrite Hr. destruct names; [congruence | reflexivity]. }
  assert (Hlen : has_len (render_order_of d) = true) by (rewrite Hr; reflexivity).
  destruct (merge_proceeds W d si Hc Hl Ht Hlen Hsi Ho) as (t_h & Wh & Oh & E).
  rewrite Hr in E. cbn [items] in E. rewrite length_map in E.
  destruct (merge_loop_names W (length names) names 1 no_counts) as (tl & El & Wl & Ol).
  rewrite El in E. cbn [fst snd] in E.
  destruct (summary_trace (length names) (tally_all W names no_counts)) as (_ & Ws & Os).
  eexists. split; [exact E|]. split.
  - rewrite !writes_app, Wh, Wl, Ws, app_nil_r. reflexivity.
  - rewrite !opens_app, Oh, Ol, Os. reflexivity.
Qed.


(* ===================================================================== *)
(** ** Stripping *)
(* ===================================================================== *)

Lemma lstrip_head (s : pystr) :
  match lstrip s with [] => True | c :: _ => isspace c = false end.
Proof.
  induction s as [|c s IH]; simpl; [exact I|].
  destruct (isspace c) eqn:E; [exact IH | exact E].
Qed.

Lemma lstrip_snoc (s : pystr) (c : N) :
  isspace c = false -> lstrip (s ++ [c]) = lstrip s ++ [c].
Proof.
  intros Hc. induction s as [|x s IH]; simpl.
  - rewrite Hc. reflexivity.
  - destruct (isspace x); [exact IH | reflexivity].
Qed.

Lemma rstrip_cons (c : N) (s : pystr) :
  isspace c = false -> rstrip (c :: s) = c :: rstrip s.
Proof.
  intros Hc. unfold rstrip. simpl rev.
  rewrite lstrip_snoc by exact Hc. rewrite rev_app_distr. reflexivity.
Qed.

(** What [strip] returns does not begin with whitespace. *)
Lemma strip_head (s : pystr) :
  match strip s with [] => True | c :: _ => isspace c = false end.
Proof.
  unfold strip. pose proof (lstrip_head s) as H.
  destruct (lstrip s) as [|c r]; [exact I|].
  rewrite rstrip_cons by exact H. exact H.
Qed.


(* ===================================================================== *)
(** ** Section markers *)
(* ===================================================================== *)

Lemma markers_app (a b : list pystr) : markers (a ++ b) = markers a + markers b.
Proof. unfold markers. rewrite filter_app, length_app. reflexivity. Qed.

Lemma rule_is_not_stripped_text (s : pystr) : str_eqb RULE (strip s) = false.
Proof.
  pose proof (strip_head s) as H. destruct (strip s) as [|c r]; [reflexivity|].
  change (((10 =? c)%N && str_eqb (tl RULE) r)%bool = false).
  destruct (N.eqb_spec 10 c) as [<-|]; [discriminate H | reflexivity].
Qed.

(** Every section opens with one rule and holds no other; an undecodable
    file has no section. *)
Lemma markers_of_section (W : World) (index : nat) (name : pystr) :
  markers (section_of W index name) = if undecodable (classify W name) then 0 else 1.
Proof.
  unfold section_of. destruct (classify W name); try reflexivity;
    unfold markers, content_section; cbn [filter];
    rewrite rule_is_not_stripped_text; reflexivity.
Qed.

Lemma markers_of_sections (W : World) (names : list pystr) :
  forall index,
    markers (sections W index names)
    = length (filter (fun n => negb (undecodable (classify W n))) names).
Proof.
  induction names as [|n names IH]; intros index; cbn [sections filter]; [reflexivity|].
  rewrite markers_app, markers_of_section, IH.
  destruct (undecodable (classify W n)); reflexivity.
Qed.

Lemma markers_of_header (W : World) (si : list (pystr * pyval)) :
  markers (header_chunks W si) = 0.
Proof.
  unfold header_chunks, other_line.
  destruct (dict_get si (u "other")) as [o|]; [destruct (truthy o)|]; reflexivity.
Qed.

(** When no entry is an undecodable file, the run writes one marker per
    entry, and the sections follow the header in list order. *)
Lemma one_marker_per_decodable_entry (W : World) (d si : list (pystr * pyval))
    (names : list pystr) :
  path_exists W content_dir = true ->
  load_config W = Loaded (PDict d) ->
  render_order_of d = PList (map PStr names) ->
  names <> [] ->
  site_info_of d = PDict si ->
  open_output W = None ->
  Forall (fun n => undecodable (classify W n) = false) names ->
  writes (snd (merge_markdown_files W)) = header_chunks W si ++ sections W 1 names
  /\ markers (writes (snd (merge_markdown_files W))) = length names.
Proof.
  intros Hc Hl Hr Hne Hsi Ho Hall.
  destruct (run_names W d si names Hc Hl Hr Hne Hsi Ho) as (t & E & Wt & _).
  rewrite E. cbn [snd writes]. split; [exact Wt|].
  rewrite Wt, markers_app, markers_of_header, markers_of_sections. cbn [Nat.add].
  f_equal. apply forallb_filter_id. apply forallb_forall.
  intros n Hn. rewrite Forall_forall in Hall. rewrite (Hall n Hn). reflexivity.
Qed.

(** C1: a manifest of three names, the second of which names a file that
    decodes neither as UTF-8 nor as GBK.  The run gets past the setup,
    returns, counts the file as an error, and writes two section markers
    for the three entries: the handler of lines 107-109 writes no
    placeholder, unlike the handler of lines 111-116. *)
Theorem C1_undecodable_entry_leaves_no_marker :
  let names := [u "a.md"; u "bin.md"; u "gone.md"] in
  let W := Sample.run Sample.tree names Sample.clock in
  fst (merge_markdown_files W)
    = Return (Some {| success_count := 1; missing_count := 1; error_count := 1 |})
  /\ writes (snd (merge_markdown_files W))
     = header_chunks W [ (u "title", PStr (u "Fili")); (u "other", PStr (u "")) ]
       ++ content_section 1 (u "a.md") (u "Hello" ++ NL)
       ++ missing_section (u "gone.md")
  /\ markers (writes (snd (merge_markdown_files W))) = 2
  /\ length names = 3.
Proof. vm_compute. repeat split. Qed.

(* ===================================================================== *)
(** ** The GBK fallback *)
(* ===================================================================== *)




(* ===================================================================== *)
(** ** Entries that exist and cannot be read *)
(* ===================================================================== *)

(** When [open] or [read] raises anything but a decoding error, the
    iteration writes the error placeholder and counts an error. *)
Lemma unreadable_entry_is_error (W : World) (total index : nat) (name : pystr)
    (c : counts) (e : pystr) :
  path_exists W (join content_dir name) = true ->
  read_text W UTF8 (join content_dir name) = ReadOtherError e ->
  exists t,
    process_file W total index (PStr name) c = (Return (failed c), t)
    /\ writes t = [ RULE;
                    u "## ❌ " ++ name ++ NL ++ NL;
                    u "*读取失败: " ++ e ++ u "*" ++ NL ++ NL ].
Proof.
  intros Hp Hu.
  destruct (process_file_str W total index name c) as (t & E & Hw & _).
  unfold section_of, classify in Hw. unfold classify in E. rewrite Hp, Hu in *.
  exists t. split; assumption.
Qed.

(** When both decodings fail, the iteration counts an error and writes
    nothing. *)
Lemma undecodable_entry_is_silent (W : World) (total index : nat) (name : pystr)
    (c : counts) (m1 m2 : pystr) :
  path_exists W (join content_dir name) = true ->
  read_text W UTF8 (join content_dir name) = ReadDecodeError m1 ->
  read_text W GBK (join content_dir name) = ReadDecodeError m2 ->
  exists t,
    process_file W total index (PStr name) c = (Return (failed c), t)
    /\ writes t = [].
Proof.
  intros Hp Hu Hg.
  destruct (process_file_str W total index name c) as (t & E & Hw & _).
  unfold section_of, classify in Hw. unfold classify in E. rewrite Hp, Hu, Hg in *.
  exists t. split; assumption.
Qed.

(** C10: the entry [bin.md] names a file that exists and cannot be read
    as text under either encoding.  The iteration counts it as an error
    (not as missing) and writes no placeholder for it, whereas for the
    subdirectory [sub] it writes the error placeholder. *)
Theorem C10_undecodable_entry_gets_no_placeholder :
  let W := Sample.run Sample.tree [u "bin.md"; u "sub"] Sample.clock in
  path_exists W (join content_dir (u "bin.md")) = true
  /\ (exists m, read_text W UTF8 (join content_dir (u "bin.md")) = ReadDecodeError m)
  /\ (exists m, read_text W GBK (join content_dir (u "bin.md")) = ReadDecodeError m)
  /\ fst (process_file W 2 1 (PStr (u "bin.md")) no_counts)
     = Return {| success_count := 0; missing_count := 0; error_count := 1 |}
  /\ writes (snd (process_file W 2 1 (PStr (u "bin.md")) no_counts)) = []
  /\ fst (process_file W 2 2 (PStr (u "sub")) no_counts)
     = Return {| success_count := 0; missing_count := 0; error_count := 1 |}
  /\ writes (snd (process_file W 2 2 (PStr (u "sub")) no_counts))
     = error_section (u "sub") (u "[Errno 21] Is a directory: 'content/sub'").
Proof.
  cbv zeta. split; [reflexivity|]. split; [eexists; reflexivity|].
  split; [eexists; reflexivity|]. repeat split; vm_compute; reflexivity.
Qed.

(* ===================================================================== *)
(** ** Paths below a regular file *)
(* ===================================================================== *)










(* ===================================================================== *)
(** ** The output file across runs *)
(* ===================================================================== *)

Lemma bind_no_open {A B} (m : M A) (k : A -> M B) :
  opens (snd m) = false ->
  (forall a, opens (snd (k a)) = false) ->
  opens (snd (bind m k)) = false.
Proof.
  intros Hm Hk. destruct m as [[a|e] t]; cbn [snd] in Hm.
  - rewrite bind_step. unfold prefix. cbn [snd]. rewrite opens_app, Hm, Hk. reflexivity.
  - exact Hm.
Qed.

Lemma write_header_no_open (W : World) (v : pyval) :
  opens (snd (write_header W v)) = false.
Proof.
  destruct v; try reflexivity.
  destruct (write_header_dict W d) as (t & -> & _ & H). exact H.
Qed.

(** What follows the [open] of line 47 opens nothing. *)
Lemma after_open_no_open (W : World) (site_info render_order : pyval) (total : nat) :
  opens (snd (write_header W site_info ;;
              files <- py_iter render_order ;;
              c <- merge_loop W total 1 files no_counts ;;
              print_summary total c ;;
              ret (Some c))) = false.
Proof.
  apply bind_no_open; [apply write_header_no_open|]. intros _.
  apply bind_no_open; [destruct render_order; reflexivity|]. intros files.
  apply bind_no_open; [apply merge_loop_no_open|]. intros c.
  reflexivity.
Qed.

(** The trace of a run either never touches the output file, or opens it
    exactly once and writes only after that. *)
Lemma merge_trace_shape (W : World) :
  (opens (snd (merge_markdown_files W)) = false
   /\ writes (snd (merge_markdown_files W)) = [])
  \/ (exists pre post,
        snd (merge_markdown_files W) = pre ++ Opened output_path :: post
        /\ opens post = false).
Proof.
  unfold merge_markdown_files.
  destruct (path_exists W content_dir); cbn [negb]; [|left; split; reflexivity].
  destruct (load_config W) as [config| |msg|e]; try (left; split; reflexivity).
  destruct config as [| | | | |l|d]; try (left; split; reflexivity).
  unfold py_get. rewrite bind_pure.
  fold (render_order_of d). fold (site_info_of d).
  destruct (truthy (render_order_of d)); cbn [negb]; [|left; split; reflexivity].
  rewrite bind_pure.
  destruct (has_len (render_order_of d)) eqn:Hlen.
  - rewrite (py_len_items _ Hlen), bind_step.
    unfold print at 1, open_w. rewrite bind_emit.
    destruct (open_output W) as [e|].
    + left. split; reflexivity.
    + right. rewrite bind_emit. unfold prefix. cbn [fst snd app].
      eexists [_], _. split; [reflexivity|]. apply after_open_no_open.
  - left. destruct (render_order_of d); try discriminate Hlen; split; reflexivity.
Qed.

(** The file a run leaves behind: untouched, or a function of the trace
    written after the [open]. *)
Lemma output_after_cases (W : World) :
  (forall prior, output_after W prior = prior)
  \/ (exists text, forall prior, output_after W prior = Some text).
Proof.
  unfold output_after. rewrite (proj2 (main_result W)).
  destruct (merge_trace_shape W) as [(Ho & Hw)|(pre & post & -> & Ho)].
  - left. intros prior. apply replay_silent; assumption.
  - right. exists (List.concat (writes post)). intros prior.
    apply replay_open. exact Ho.
Qed.

(** ** The clock *)

Lemma merge_loop_at_microsecond (W : World) (us total : nat) (files : list pyval) :
  forall index c,
    merge_loop (at_microsecond W us) total index files c
    = merge_loop W total index files c.
Proof.
  induction files as [|v files IH]; intros index c; cbn [merge_loop]; [reflexivity|].
  change (process_file (at_microsecond W us) total index v c)
    with (process_file W total index v c).
  destruct (process_file W total index v c) as [[c'|e] t].
  - rewrite !bind_step, IH. reflexivity.
  - reflexivity.
Qed.

(** The run reads the clock to the second. *)
Lemma merge_at_microsecond (W : World) (us : nat) :
  merge_markdown_files (at_microsecond W us) = merge_markdown_files W.
Proof.
  unfold merge_markdown_files. cbn [at_microsecond path_exists load_config].
  destruct (path_exists W content_dir); cbn [negb]; [|reflexivity].
  destruct (load_config W) as [config| |msg|e]; try reflexivity.
  destruct config as [| | | | |l|d]; try reflexivity.
  unfold py_get. rewrite !bind_pure.
  fold (render_order_of d). fold (site_info_of d).
  destruct (truthy (render_order_of d)); cbn [negb]; [|reflexivity].
  rewrite ?bind_pure.
  destruct (has_len (render_order_of d)) eqn:Hlen.
  - rewrite (py_len_items _ Hlen), !bind_step. f_equal.
    unfold print, open_w. rewrite !bind_emit. f_equal.
    cbn [at_microsecond open_output].
    destruct (open_output W) as [e|]; [reflexivity|].
    rewrite !bind_emit. f_equal.
    change (write_header (at_microsecond W us)) with (write_header W).
    destruct (write_header W _) as [[[]|e] th]; [|reflexivity].
    rewrite !bind_step. f_equal.
    rewrite (py_iter_items _ Hlen). fold (ret (items (render_order_of d))).
    rewrite !bind_pure, merge_loop_at_microsecond. reflexivity.
  - destruct (render_order_of d); try discriminate Hlen; reflexivity.
Qed.

Lemma str_eqb_refl (a : pystr) : str_eqb a a = true.
Proof. induction a as [|x a IH]; simpl; [reflexivity|]. rewrite N.eqb_refl. exact IH. Qed.

Lemma same_disk_refl (a : disk) : same_disk a a = true.
Proof. destruct a; simpl; [apply str_eqb_refl | reflexivity]. Qed.

(** C4, as amended: a run overwrites and never appends.  Run again in the
    same world (configuration, content directory, and clock reading), it
    leaves the output file exactly as the first run left it; the file a
    run leaves is either the one it found (the run stopped before line
    47) or does not depend on the one it found; and the clock enters only
    to the second. *)
Theorem C4_overwrite_not_append (W : World) (prior prior' : disk) (us : nat) :
  output_after W (output_after W prior) = output_after W prior
  /\ (output_after W prior = output_after W prior'
      \/ (output_after W prior = prior /\ output_after W prior' = prior'))
  /\ output_after (at_microsecond W us) prior = output_after W prior.
Proof.
  split; [|split].
  - destruct (output_after_cases W) as [H|(text & H)]; rewrite !H; reflexivity.
  - destruct (output_after_cases W) as [H|(text & H)].
    + right. split; apply H.
    + left. rewrite !H. reflexivity.
  - unfold output_after. rewrite !(proj2 (main_result _)), merge_at_microsecond.
    reflexivity.
Qed.

(** C4 as stated fails: two runs on the same configuration and content
    directory, one second apart, leave different files (the header holds
    the time of the run). *)
Lemma C4_counterexample :
  ~ (forall (W1 W2 : World) (prior : disk),
       path_exists W1 = path_exists W2 ->
       read_text W1 = read_text W2 ->
       load_config W1 = load_config W2 ->
       open_output W1 = open_output W2 ->
       repr_of W1 = repr_of W2 ->
       output_after W2 (output_after W1 prior) = output_after W1 prior).
Proof.
  intros H.
  pose proof (H (Sample.run Sample.tree [u "a.md"] Sample.clock)
                (Sample.run Sample.tree [u "a.md"] Sample.later)
                None eq_refl eq_refl eq_refl eq_refl eq_refl) as E.
  pose proof (same_disk_refl
                (output_after (Sample.run Sample.tree [u "a.md"] Sample.clock) None)) as R.
  rewrite <- E in R at 1. vm_compute in R. discriminate R.
Qed.

(* ===================================================================== *)
(** ** Exceptions and the exit status *)
(* ===================================================================== *)



(** Another input that is not handled: a chapter that is a number stops
    the run in [os.path.join], after the header was written. *)
Example number_entry_raises :
  fst (merge_markdown_files Sample.number_entry) = Raised TypeError
  /\ writes (snd (merge_markdown_files Sample.number_entry))
     = header_chunks Sample.number_entry [].
Proof. split; reflexivity. Qed.


(* ===================================================================== *)
(** ** The header *)
(* ===================================================================== *)



(** The header of the sample run, as text. *)
Example sample_header :
  header_chunks (Sample.run Sample.tree [u "a.md"] Sample.clock)
                [ (u "title", PStr (u "Fili")); (u "other", PStr (u "")) ]
  = [ u "# Fili" ++ NL ++ NL;
      u "****" ++ NL ++ NL;
      u "作者: Unknown" ++ NL ++ NL;
      u "网站: " ++ NL ++ NL;
      u "生成时间: 2024-05-17 09:30:07" ++ NL ++ NL;
      u "================================================================================"
        ++ NL ++ NL ].
Proof. vm_compute. reflexivity. Qed.

(* ===================================================================== *)
(** ** Early returns *)
(* ===================================================================== *)

(** A run that leaves at one of the early [return]s has neither opened
    nor written the output file. *)
Lemma early_return_is_silent (W : World) :
  fst (merge_markdown_files W) = Return None ->
  opens (snd (merge_markdown_files W)) = false
  /\ writes (snd (merge_markdown_files W)) = [].
Proof.
  unfold merge_markdown_files.
  destruct (path_exists W content_dir); cbn [negb]; [|intros _; split; reflexivity].
  destruct (load_config W) as [config| |msg|e]; try (intros _; split; reflexivity).
  destruct config as [| | | | |l|d]; try (intros _; split; reflexivity).
  unfold py_get. rewrite bind_pure.
  fold (render_order_of d). fold (site_info_of d).
  destruct (truthy (render_order_of d)); cbn [negb]; [|intros _; split; reflexivity].
  rewrite bind_pure.
  destruct (has_len (render_order_of d)) eqn:Hlen.
  - rewrite (py_len_items _ Hlen), bind_step.
    unfold print at 1, open_w. rewrite bind_emit.
    destruct (open_output W) as [e|]; [intros _; split; reflexivity|].
    intros H. exfalso. revert H.
    rewrite bind_emit. unfold prefix. cbn [fst snd].
    destruct (write_header W (site_info_of d)) as [[[]|e] th]; [|discriminate].
    rewrite bind_step, (py_iter_items _ Hlen).
    fold (ret (items (render_order_of d))). rewrite bind_pure.
    destruct (merge_loop W _ 1 _ no_counts) as [[c|e] tl]; [|discriminate].
    rewrite bind_step. discriminate.
  - destruct (render_order_of d); try discriminate Hlen; intros _; split; reflexivity.
Qed.

Lemma early_return_keeps_output (W : World) (prior : disk) :
  fst (merge_markdown_files W) = Return None ->
  output_after W prior = prior.
Proof.
  intros H. destruct (early_return_is_silent W H) as (Ho & Hw).
  unfold output_after. rewrite (proj2 (main_result W)).
  apply replay_silent; assumption.
Qed.

(* ===================================================================== *)
(** * Further properties of the routine *)
(* ===================================================================== *)

(** ** How a run ends *)

Lemma reaches_open_inv (W : World) :
  reaches_open W = true ->
  path_exists W content_dir = true
  /\ exists d, load_config W = Loaded (PDict d)
               /\ truthy (render_order_of d) = true
               /\ has_len (render_order_of d) = true.
Proof.
  unfold reaches_open. intros H. apply andb_prop in H. destruct H as [Hc H].
  split; [exact Hc|].
  destruct (load_config W) as [config| |msg|e]; try discriminate H.
  destruct config as [| | | | |l|d]; try discriminate H.
  apply andb_prop in H. destruct H as [Ht Hl]. exists d. repeat split; assumption.
Qed.

Lemma aborts_not_reaching (W : World) : aborts W = true -> reaches_open W = false.
Proof.
  unfold aborts, reaches_open.
  destruct (path_exists W content_dir); cbn [negb orb andb]; [|reflexivity].
  destruct (load_config W) as [config| |msg|e]; try reflexivity.
  destruct config as [| | | | |l|d]; try reflexivity.
  destruct (truthy (render_order_of d)); [discriminate | reflexivity].
Qed.

(** An early return prints one line and does nothing else. *)
Lemma setup_abort (W : World) :
  aborts W = true ->
  merge_markdown_files W = (Return None, [Printed (abort_message W)]).
Proof.
  unfold aborts, abort_message, merge_markdown_files.
  destruct (path_exists W content_dir); cbn [negb orb]; [|intros _; reflexivity].
  destruct (load_config W) as [config| |msg|e]; try discriminate; try (intros _; reflexivity).
  destruct config as [| | | | |l|d]; try discriminate.
  unfold py_get. rewrite bind_pure. fold (render_order_of d).
  destruct (truthy (render_order_of d)); [discriminate | intros _; reflexivity].
Qed.

(** An input that is neither refused nor accepted by the setup raises
    before anything is printed. *)
Lemma setup_raise (W : World) :
  aborts W = false ->
  reaches_open W = false ->
  exists e, merge_markdown_files W = (Raised e, []).
Proof.
  unfold aborts, reaches_open, merge_markdown_files.
  destruct (path_exists W content_dir); cbn [negb orb andb]; [|discriminate].
  destruct (load_config W) as [config| |msg|e]; try discriminate.
  - destruct config as [| | | | |l|d];
      try (intros _ _; exists AttributeError; reflexivity).
    unfold py_get. rewrite bind_pure. fold (render_order_of d).
    destruct (truthy (render_order_of d)); cbn [negb andb]; [|discriminate].
    intros _ Hlen. exists TypeError. rewrite bind_pure.
    destruct (render_order_of d); try discriminate Hlen; reflexivity.
  - intros _ _. exists e. reflexivity.
Qed.

(** When the output file cannot be opened the exception leaves the
    routine; the start line was printed. *)
Lemma open_failure (W : World) (e : exn) :
  reaches_open W = true ->
  open_output W = Some e ->
  exists d,
    load_config W = Loaded (PDict d)
    /\ merge_markdown_files W
       = (Raised e, [Printed (start_line (length (items (render_order_of d))))]).
Proof.
  intros Hr Ho. destruct (reaches_open_inv W Hr) as (Hc & d & Hl & Ht & Hlen).
  exists d. split; [exact Hl|].
  unfold merge_markdown_files. rewrite Hc, Hl. cbn [negb].
  unfold py_get. rewrite bind_pure. fold (render_order_of d). rewrite Ht. cbn [negb].
  rewrite bind_pure, (py_len_items _ Hlen), bind_step.
  unfold print at 1, open_w. rewrite Ho, bind_emit. reflexivity.
Qed.

(** When [siteInfo] is not an object, the first [site_info.get] raises:
    the output file was opened and nothing was written. *)
Lemma site_info_failure (W : World) (d : list (pystr * pyval)) :
  reaches_open W = true ->
  open_output W = None ->
  load_config W = Loaded (PDict d) ->
  is_dict (site_info_of d) = false ->
  merge_markdown_files W
  = (Raised AttributeError,
     [Printed (start_line (length (items (render_order_of d)))); Opened output_path]).
Proof.
  intros Hr Ho Hl Hsi. destruct (reaches_open_inv W Hr) as (Hc & d' & Hl' & Ht & Hlen).
  rewrite Hl in Hl'. injection Hl' as <-.
  unfold merge_markdown_files. rewrite Hc, Hl. cbn [negb].
  unfold py_get. rewrite bind_pure. fold (render_order_of d). rewrite Ht. cbn [negb].
  rewrite bind_pure, (py_len_items _ Hlen), bind_step.
  unfold print at 1, open_w. rewrite Ho, !bind_emit. fold (site_info_of d).
  rewrite write_header_not_dict.
  - reflexivity.
  - intros si E. rewrite E in Hsi. discriminate Hsi.
Qed.

Lemma names_of_strings (files : list pyval) :
  forallb is_str files = true -> files = map PStr (names_of files).
Proof.
  induction files as [|v files IH]; intros H; [reflexivity|].
  apply andb_prop in H. destruct H as [Hv H].
  destruct v; try discriminate Hv. unfold names_of. cbn [flat_map app map].
  f_equal. apply IH, H.
Qed.

(** The loop ends with [TypeError] as soon as an entry is not a string. *)
Lemma merge_loop_raises (W : World) (total : nat) (files : list pyval) :
  forallb is_str files = false ->
  forall index c, fst (merge_loop W total index files c) = Raised TypeError.
Proof.
  induction files as [|v files IH]; intros H index c; [discriminate H|].
  cbn [merge_loop]. destruct (is_str v) eqn:Hv.
  - destruct v; try discriminate Hv.
    destruct (process_file_str W total index s c) as (t & E & _).
    rewrite E, bind_step. unfold prefix. cbn [fst]. apply IH.
    cbn [forallb is_str andb] in H. exact H.
  - rewrite process_file_not_str; [reflexivity|].
    intros s E. rewrite E in Hv. discriminate Hv.
Qed.

Lemma completes_inv (W : World) :
  completes W = true ->
  reaches_open W = true /\ open_output W = None
  /\ exists d si,
       load_config W = Loaded (PDict d) /\ site_info_of d = PDict si
       /\ forallb is_str (items (render_order_of d)) = true.
Proof.
  unfold completes, opens_output. intros H.
  apply andb_prop in H. destruct H as [H1 H2].
  apply andb_prop in H1. destruct H1 as [Hr Ho].
  split; [exact Hr|]. split; [destruct (open_output W); [discriminate Ho | reflexivity]|].
  destruct (load_config W) as [config| |msg|e]; try discriminate H2.
  destruct config as [| | | | |l|d]; try discriminate H2.
  apply andb_prop in H2. destruct H2 as [Hsi Hstr].
  destruct (site_info_of d) as [| | | | |l|si] eqn:E; try discriminate Hsi.
  exists d, si. repeat split; assumption.
Qed.

(** A run that completes: the whole trace. *)
Lemma complete_run (W : World) :
  completes W = true ->
  exists d si names t,
    load_config W = Loaded (PDict d)
    /\ site_info_of d = PDict si
    /\ items (render_order_of d) = map PStr names
    /\ merge_markdown_files W
       = (Return (Some (tally_all W names no_counts)),
          Printed (start_line (length names)) :: Opened output_path :: t
            ++ snd (print_summary (length names) (tally_all W names no_counts)))
    /\ writes t = header_chunks W si ++ sections W 1 names
    /\ opens t = false.
Proof.
  intros H. destruct (completes_inv W H) as (Hr & Ho & d & si & Hl & Hsi & Hstr).
  destruct (reaches_open_inv W Hr) as (Hc & d' & Hl' & Ht & Hlen).
  rewrite Hl in Hl'. injection Hl' as <-.
  pose proof (names_of_strings _ Hstr) as Hn.
  set (names := names_of (items (render_order_of d))) in *.
  destruct (merge_proceeds W d si Hc Hl Ht Hlen Hsi Ho) as (t_h & Wh & Oh & E).
  rewrite Hn in E. rewrite length_map in E.
  destruct (merge_loop_names W (length names) names 1 no_counts) as (tl & El & Wl & Ol).
  rewrite El in E. cbn [fst snd] in E.
  exists d, si, names, (t_h ++ tl). repeat split; try assumption.
  - rewrite E. rewrite <- app_assoc. reflexivity.
  - rewrite writes_app, Wh, Wl. reflexivity.
  - rewrite opens_app, Oh, Ol. reflexivity.
Qed.

(** A run that opens the output file and does not complete raises. *)
Lemma incomplete_run (W : World) :
  opens_output W = true ->
  completes W = false ->
  exists e post,
    merge_markdown_files W
    = (Raised e, Printed (start_line
                            (match load_config W with
                             | Loaded (PDict d) => length (items (render_order_of d))
                             | _ => 0
                             end)) :: Opened output_path :: post)
    /\ opens post = false.
Proof.
  intros Hop Hco. unfold completes in Hco. rewrite Hop in Hco. cbn [andb] in Hco.
  unfold opens_output in Hop. apply andb_prop in Hop. destruct Hop as [Hr Ho].
  assert (Ho' : open_output W = None) by (destruct (open_output W); [discriminate Ho | reflexivity]).
  destruct (reaches_open_inv W Hr) as (Hc & d & Hl & Ht & Hlen).
  rewrite Hl in *.
  destruct (is_dict (site_info_of d)) eqn:Hsi.
  - cbn [andb] in Hco.
    destruct (site_info_of d) as [| | | | |l|si] eqn:Esi; try discriminate Hsi.
    destruct (merge_proceeds W d si Hc Hl Ht Hlen Esi Ho') as (t_h & Wh & Oh & E).
    pose proof (merge_loop_raises W (length (items (render_order_of d))) _ Hco 1 no_counts) as Hf.
    pose proof (merge_loop_no_open W (length (items (render_order_of d)))
                  (items (render_order_of d)) 1 no_counts) as Hn.
    rewrite Hf in E. exists TypeError. eexists. split; [exact E|].
    rewrite !opens_app, Oh, Hn. reflexivity.
  - exists AttributeError, []. split; [|reflexivity].
    apply site_info_failure; assumption.
Qed.

(** X1: the routine leaves at an early [return] exactly when the content
    path is absent, or the configuration file is absent or not JSON, or
    the configuration is an object whose [chapters] is falsy (absent,
    [null], [false], [0], empty string, list or object).  It then prints
    the one message of that case and neither creates nor changes the
    output file. *)
Theorem early_return_characterised (W : World) :
  (fst (merge_markdown_files W) = Return None <-> aborts W = true)
  /\ (aborts W = true ->
      snd (merge_markdown_files W) = [Printed (abort_message W)]
      /\ forall prior, output_after W prior = prior).
Proof.
  split; [split|].
  - intros H. destruct (aborts W) eqn:Ha; [reflexivity|]. exfalso.
    destruct (reaches_open W) eqn:Hr.
    + destruct (open_output W) as [e|] eqn:Ho.
      * destruct (open_failure W e Hr Ho) as (d & _ & E). rewrite E in H. discriminate H.
      * assert (Hop : opens_output W = true) by (unfold opens_output; rewrite Hr, Ho; reflexivity).
        destruct (completes W) eqn:Hco.
        -- destruct (complete_run W Hco) as (d & si & names & t & _ & _ & _ & E & _).
           rewrite E in H. discriminate H.
        -- destruct (incomplete_run W Hop Hco) as (e & post & E & _).
           rewrite E in H. discriminate H.
    + destruct (setup_raise W Ha Hr) as (e & E). rewrite E in H. discriminate H.
  - intros Ha. rewrite (setup_abort W Ha). reflexivity.
  - intros Ha. rewrite (setup_abort W Ha). split; [reflexivity|].
    intros prior. unfold output_after. rewrite (proj2 (main_result W)), (setup_abort W Ha).
    reflexivity.
Qed.


(** X3: the output file is opened exactly when the setup accepts the
    input and [open] succeeds, and then exactly once.  When it is not
    opened it is left as found; when it is, it holds what was written
    after the [open] and nothing of what it held before. *)
Theorem output_touched_exactly_when_opened (W : World) :
  opens (snd (merge_markdown_files W)) = opens_output W
  /\ (opens_output W = false -> forall prior, output_after W prior = prior)
  /\ (opens_output W = true ->
      exists line post,
        snd (merge_markdown_files W) = Printed line :: Opened output_path :: post
        /\ opens post = false
        /\ forall prior, output_after W prior = Some (List.concat (writes post))).
Proof.
  assert (Hshape :
    (opens_output W = false
     /\ opens (snd (merge_markdown_files W)) = false
     /\ writes (snd (merge_markdown_files W)) = [])
    \/ (opens_output W = true
        /\ exists line post,
             snd (merge_markdown_files W) = Printed line :: Opened output_path :: post
             /\ opens post = false)).
  { destruct (opens_output W) eqn:Hop.
    - right. split; [reflexivity|].
      destruct (completes W) eqn:Hco.
      + destruct (complete_run W Hco) as (d & si & names & t & _ & _ & _ & E & _ & Ot).
        rewrite E. eexists _, _. split; [reflexivity|].
        rewrite opens_app, Ot. reflexivity.
      + destruct (incomplete_run W Hop Hco) as (e & post & E & Ot).
        rewrite E. eexists _, _. split; [reflexivity | exact Ot].
    - left. split; [reflexivity|].
      destruct (aborts W) eqn:Ha.
      + rewrite (setup_abort W Ha). split; reflexivity.
      + destruct (reaches_open W) eqn:Hr.
        * unfold opens_output in Hop. rewrite Hr in Hop. cbn [andb] in Hop.
          destruct (open_output W) as [e|] eqn:Ho; [|discriminate Hop].
          destruct (open_failure W e Hr Ho) as (d & _ & E). rewrite E. split; reflexivity.
        * destruct (setup_raise W Ha Hr) as (e & E). rewrite E. split; reflexivity. }
  destruct Hshape as [(Hop & Ho & Hw)|(Hop & line & post & E & Ot)]; rewrite Hop.
  - split; [exact Ho|]. split; [|discriminate].
    intros _ prior. unfold output_after. rewrite (proj2 (main_result W)).
    apply replay_silent; assumption.
  - split; [rewrite E; reflexivity|]. split; [discriminate|].
    intros _. exists line, post. split; [exact E|]. split; [exact Ot|].
    intros prior. unfold output_after. rewrite (proj2 (main_result W)), E.
    change (Printed line :: Opened output_path :: post)
      with ([Printed line] ++ Opened output_path :: post).
    apply replay_open. exact Ot.
Qed.

(** X4: when the setup accepts the input and the output file is opened,
    but [siteInfo] is not an object, the first [site_info.get] raises
    [AttributeError]: the run ends there, and the output file is left
    empty, whatever it held before. *)
Theorem site_info_not_object_empties_output (W : World) (d : list (pystr * pyval))
    (prior : disk) :
  reaches_open W = true ->
  open_output W = None ->
  load_config W = Loaded (PDict d) ->
  is_dict (site_info_of d) = false ->
  fst (merge_markdown_files W) = Raised AttributeError
  /\ writes (snd (merge_markdown_files W)) = []
  /\ output_after W prior = Some [].
Proof.
  intros Hr Ho Hl Hsi.
  pose proof (site_info_failure W d Hr Ho Hl Hsi) as E.
  rewrite E. split; [reflexivity|]. split; [reflexivity|].
  unfold output_after. rewrite (proj2 (main_result W)), E. reflexivity.
Qed.

Lemma site_info_not_object_empties_output_witness :
  fst (merge_markdown_files Cases.site_is_string) = Raised AttributeError
  /\ writes (snd (merge_markdown_files Cases.site_is_string)) = []
  /\ output_after Cases.site_is_string (Some (u "an earlier merge")) = Some [].
Proof.
  apply (site_info_not_object_empties_output Cases.site_is_string
           [ (u "chapters", PList [PStr (u "a.md")]); (u "siteInfo", PStr (u "Fili")) ]);
    reflexivity.
Defined.

(** X5: when the output file cannot be opened, the exception of [open]
    leaves the routine: the start line is the only thing printed, no
    chapter is looked at, and the output file is left as found. *)
Theorem output_open_failure_propagates (W : World) (e : exn) (prior : disk) :
  reaches_open W = true ->
  open_output W = Some e ->
  fst (merge_markdown_files W) = Raised e
  /\ (exists line, snd (merge_markdown_files W) = [Printed line])
  /\ output_after W prior = prior.
Proof.
  intros Hr Ho. destruct (open_failure W e Hr Ho) as (d & _ & E).
  rewrite E. split; [reflexivity|]. split; [eexists; reflexivity|].
  unfold output_after. rewrite (proj2 (main_result W)), E. reflexivity.
Qed.

Lemma output_open_failure_propagates_witness :
  fst (merge_markdown_files Cases.locked)
    = Raised (OSError (u "[Errno 13] Permission denied: 'merged_output.md'"))
  /\ (exists line, snd (merge_markdown_files Cases.locked) = [Printed line])
  /\ output_after Cases.locked (Some (u "an earlier merge")) = Some (u "an earlier merge").
Proof.
  apply (output_open_failure_propagates Cases.locked); reflexivity.
Defined.

(** ** The loop *)


















(** ** One entry, effect by effect *)











Lemma join_entry_path (name : pystr) : join content_dir name = entry_path name.
Proof. unfold join, entry_path. destruct (startswith_sep name); reflexivity. Qed.

(** X16: an iteration looks at one path only: the name itself when it
    starts with ['/'] (the content directory is then left), and
    [content/name] otherwise.  Two worlds that agree on that path give
    the same result and the same effects. *)
Theorem entry_depends_on_its_path_only (W W' : World) (total index : nat)
    (name : pystr) (c : counts) :
  path_exists W (entry_path name) = path_exists W' (entry_path name) ->
  (forall enc, read_text W enc (entry_path name) = read_text W' enc (entry_path name)) ->
  process_file W total index (PStr name) c = process_file W' total index (PStr name) c.
Proof.
  intros Hp Hr. unfold process_file, os_path_join.
  rewrite !bind_pure, join_entry_path, Hp, (Hr UTF8), (Hr GBK). reflexivity.
Qed.

Lemma entry_depends_on_its_path_only_witness :
  process_file Cases.blanks 2 2 (PStr (u "/elsewhere.md")) no_counts
  = process_file Cases.moved 2 2 (PStr (u "/elsewhere.md")) no_counts.
Proof.
  apply (entry_depends_on_its_path_only Cases.blanks Cases.moved 2 2
           (u "/elsewhere.md") no_counts).
  - reflexivity.
  - intros enc. reflexivity.
Defined.

(** ** The header and the loop, once more *)

(** X17: the fallback texts of the header stand in for an absent key
    only.  A title that is present and [null] is written as [None]. *)
Theorem null_title_is_written_as_None (W : World) (d si : list (pystr * pyval)) :
  reaches_open W = true ->
  open_output W = None ->
  load_config W = Loaded (PDict d) ->
  site_info_of d = PDict si ->
  dict_get si (u "title") = Some PNone ->
  exists rest,
    writes (snd (merge_markdown_files W)) = (u "# None" ++ NL ++ NL) :: rest.
Proof.
  intros Hr Ho Hl Hsi Ht.
  destruct (reaches_open_inv W Hr) as (Hc & d' & Hl' & Htr & Hlen).
  rewrite Hl in Hl'. injection Hl' as <-.
  destruct (merge_proceeds W d si Hc Hl Htr Hlen Hsi Ho) as (t_h & Wh & _ & E).
  rewrite E. cbn [snd writes]. rewrite writes_app, Wh.
  unfold header_chunks, field. rewrite Ht. cbn [app fmt].
  eexists. reflexivity.
Qed.

Lemma null_title_is_written_as_None_witness :
  exists rest,
    writes (snd (merge_markdown_files Cases.null_title)) = (u "# None" ++ NL ++ NL) :: rest.
Proof.
  apply (null_title_is_written_as_None Cases.null_title
           [ (u "chapters", PList [PStr (u "a.md")]);
             (u "siteInfo", PDict [ (u "title", PNone) ]) ]
           [ (u "title", PNone) ]); reflexivity.
Defined.


